(** * Simple-Bank: the transaction executor and the money transfer

    A shallow embedding of [db/sqlc/store.go]: [execTx] and [TransferTx],
    run against an in-memory model of the SQL store.  Go functions that
    return [(T, error)] return a pair [(T, option error)] here ([None] is
    Go's [nil]); the database and the variables captured by a closure are
    threaded through explicitly. *)

From Stdlib Require Import ZArith Lia List.
From stdpp Require Import base gmap strings list.

Open Scope Z_scope.

(** ** int64 arithmetic

    Go's [int64] is a 64-bit two's-complement integer: it is a [Z] in the
    range of [in_int64], and [+], [-] and unary [-] wrap around. *)

Definition MinInt64 : Z := - 2 ^ 63.
Definition MaxInt64 : Z := 2 ^ 63 - 1.

Definition in_int64 (z : Z) : Prop := MinInt64 <= z <= MaxInt64.

Definition wrap64 (z : Z) : Z := (z + 2 ^ 63) mod 2 ^ 64 - 2 ^ 63.

Definition add64 (a b : Z) : Z := wrap64 (a + b).
Definition sub64 (a b : Z) : Z := wrap64 (a - b).
Definition neg64 (a : Z) : Z := wrap64 (- a).

(** ** Errors

    An [error] is one of the values the code can meet: the two sentinels of
    [database/sql], an error coming from the driver, and the value built by
    [fmt.Errorf].  [Error] is the method of Go's [error] interface. *)

Inductive error : Type :=
| ErrNoRows
| ErrTxDone
| ErrDriver (msg : string)
| ErrorString (msg : string).

Definition Error (e : error) : string :=
  match e with
  | ErrNoRows => "sql: no rows in result set"
  | ErrTxDone => "sql: transaction has already been committed or rolled back"
  | ErrDriver msg => msg
  | ErrorString msg => msg
  end.

(** [fmt.Errorf("tx err: %v, rb err: %v", err, rbErr)]: the verb [%v]
    prints an error through its [Error] method, and without [%w] the
    result is a plain error string. *)
Definition Errorf_tx_rb (err rbErr : error) : error :=
  ErrorString ("tx err: " +:+ Error err +:+ ", rb err: " +:+ Error rbErr).

(** [substring_of s t]: [s] occurs in [t]. *)
Definition substring_of (s t : string) : Prop :=
  exists pre post, t = pre +:+ s +:+ post.

(** ** Rows and query parameters *)

(** Modelled from the spec: the row types [Account], [Entry] and [Transfer]
    are declared in the generated [models.go], which is not among the
    sources.  The fields are those of the spec's data model; creation
    times are wall-clock values and are left out. *)
Module Account.
Record t : Type := mk { ID : Z; Owner : string; Balance : Z; Currency : string }.
Definition zero : t := mk 0 EmptyString 0 EmptyString.
Definition with_Balance (b : Z) (a : t) : t := mk (ID a) (Owner a) b (Currency a).
End Account.

Module Entry.
Record t : Type := mk { AccountID : Z; Amount : Z }.
Definition zero : t := mk 0 0.
End Entry.

Module Transfer.
Record t : Type := mk { FromAccountID : Z; ToAccountID : Z; Amount : Z }.
Definition zero : t := mk 0 0 0.
End Transfer.

(** Modelled from the spec: the parameter structs of the generated query
    methods, with the fields [TransferTx] fills in. *)
Module CreateTransferParams.
Record t : Type := mk { FromAccountID : Z; ToAccountID : Z; Amount : Z }.
End CreateTransferParams.

Module CreateEntryParams.
Record t : Type := mk { AccountID : Z; Amount : Z }.
End CreateEntryParams.

Module UpdateAccountParams.
Record t : Type := mk { ID : Z; Balance : Z }.
End UpdateAccountParams.

(** ** The store *)

Record Tables : Type := mkTables {
  accounts : gmap Z Account.t;
  entries : list Entry.t;
  transfers : list Transfer.t
}.

Definition find_account (id : Z) (t : Tables) : option Account.t := accounts t !! id.

Definition put_account (id : Z) (a : Account.t) (t : Tables) : Tables :=
  mkTables (<[id := a]> (accounts t)) (entries t) (transfers t).

Definition add_entry (e : Entry.t) (t : Tables) : Tables :=
  mkTables (accounts t) (entries t ++ [e]) (transfers t).

Definition add_transfer (x : Transfer.t) (t : Tables) : Tables :=
  mkTables (accounts t) (entries t) (transfers t ++ [x]).

Inductive Stmt : Type :=
| createTransfer (arg : CreateTransferParams.t)
| createEntry (arg : CreateEntryParams.t)
| getAccount (id : Z)
| updateAccount (arg : UpdateAccountParams.t).

Inductive Call : Type :=
| CBegin
| CCommit
| CRollback
| CStmt (s : Stmt).

(** What the store has been asked to do, with the outcome of each call. *)
Definition Event : Type := Call * option error.

(** *** database/sql handles *)

Inductive sqlDB : Type := TheDB.
Inductive sqlTx : Type := TheTx.

(** The [DBTX] interface of the generated code: a connection or a
    transaction. *)
Inductive DBTX : Type :=
| OnDB (d : sqlDB)
| OnTx (tx : sqlTx).

(** The world a transfer runs in.  [committed] is what every observer of
    the store sees; [pending] is the working copy of the open transaction;
    [script] injects failures: each call to the driver consumes its head,
    and [Some e] there makes that call fail with [e] (an exhausted script
    injects nothing); [log] records the calls in the order they were made;
    [stdout] collects what [fmt.Println] prints; [sent] records every
    statement with the handle it was sent through; [failed_commit_lands]
    is the store's answer to what the code cannot know: whether a commit
    that reports an error has installed the writes all the same. *)
Record World : Type := mkWorld {
  committed : Tables;
  pending : option Tables;
  script : list (option error);
  log : list Event;
  stdout : list string;
  sent : list (DBTX * Stmt);
  failed_commit_lands : bool
}.

Definition set_committed (t : Tables) (w : World) : World :=
  mkWorld t (pending w) (script w) (log w) (stdout w) (sent w) (failed_commit_lands w).
Definition set_pending (p : option Tables) (w : World) : World :=
  mkWorld (committed w) p (script w) (log w) (stdout w) (sent w) (failed_commit_lands w).
Definition set_script (s : list (option error)) (w : World) : World :=
  mkWorld (committed w) (pending w) s (log w) (stdout w) (sent w) (failed_commit_lands w).
Definition record (ev : Event) (w : World) : World :=
  mkWorld (committed w) (pending w) (script w) (log w ++ [ev]) (stdout w) (sent w)
          (failed_commit_lands w).
Definition print (line : string) (w : World) : World :=
  mkWorld (committed w) (pending w) (script w) (log w) (stdout w ++ [line]) (sent w)
          (failed_commit_lands w).
Definition send (d : DBTX) (s : Stmt) (w : World) : World :=
  mkWorld (committed w) (pending w) (script w) (log w) (stdout w) (sent w ++ [(d, s)])
          (failed_commit_lands w).

Definition next_fault (w : World) : option error * World :=
  (hd None (script w), set_script (tl (script w)) w).

(** The events recorded between two worlds. *)
Definition events_since (w w' : World) : list Event :=
  drop (length (log w)) (log w').

(** The statements sent between two worlds, each with its handle. *)
Definition sent_since (w w' : World) : list (DBTX * Stmt) :=
  drop (length (sent w)) (sent w').

(** [context.Context]: only the value stored under [txKey] is read. *)
Record Context : Type := mkContext { tx_name : option string }.

Inductive ctxKey : Type := txKey.

Definition Value (ctx : Context) (k : ctxKey) : option string := tx_name ctx.

(** [db.BeginTx(ctx, nil)] *)
Definition BeginTx (d : sqlDB) (ctx : Context) (w : World) : (sqlTx * option error) * World :=
  let '(f, w) := next_fault w in
  match f with
  | Some e => ((TheTx, Some e), record (CBegin, Some e) w)
  | None => ((TheTx, None), record (CBegin, None) (set_pending (Some (committed w)) w))
  end.

(** [tx.Commit()]: a commit that succeeds installs the working copy.  The
    outcome of a commit that fails is not determined: the working copy is
    installed as a whole or not at all, as [failed_commit_lands] says. *)
Definition Commit (tx : sqlTx) (w : World) : option error * World :=
  let '(f, w) := next_fault w in
  match pending w with
  | None => (Some ErrTxDone, record (CCommit, Some ErrTxDone) w)
  | Some t =>
    match f with
    | Some e =>
      (Some e, record (CCommit, Some e)
                 (set_pending None (if failed_commit_lands w then set_committed t w else w)))
    | None => (None, record (CCommit, None) (set_pending None (set_committed t w)))
    end
  end.

(** [tx.Rollback()]: the working copy is dropped whether or not the driver
    reports an error. *)
Definition Rollback (tx : sqlTx) (w : World) : option error * World :=
  let '(f, w) := next_fault w in
  match pending w with
  | None => (Some ErrTxDone, record (CRollback, Some ErrTxDone) w)
  | Some _ =>
    match f with
    | Some e => (Some e, record (CRollback, Some e) (set_pending None w))
    | None => (None, record (CRollback, None) (set_pending None w))
    end
  end.

(** *** The query handle *)

Record Queries : Type := mkQueries { db : DBTX }.

Definition New (d : DBTX) : Queries := mkQueries d.

Definition view (d : DBTX) (w : World) : option Tables :=
  match d with
  | OnDB _ => Some (committed w)
  | OnTx _ => pending w
  end.

Definition store_view (d : DBTX) (t : Tables) (w : World) : World :=
  match d with
  | OnDB _ => set_committed t w
  | OnTx _ => set_pending (Some t) w
  end.

(** One statement sent through a handle: an injected fault or a finished
    transaction fails it without touching the tables; otherwise [sem] is
    applied to the tables the handle sees. *)
Definition run_stmt {A : Type} (d : DBTX) (s : Stmt) (zero : A)
    (sem : Tables -> (A * option error) * Tables) (w : World) : (A * option error) * World :=
  let '(f, w) := next_fault (send d s w) in
  match f with
  | Some e => ((zero, Some e), record (CStmt s, Some e) w)
  | None =>
    match view d w with
    | None => ((zero, Some ErrTxDone), record (CStmt s, Some ErrTxDone) w)
    | Some t =>
      let '((a, err), t') := sem t in
      ((a, err), record (CStmt s, err) (store_view d t' w))
    end
  end.

(** Modelled from the spec: the four generated query methods of [Queries]
    are not among the sources.  createTransfer(from, to, amount) gives the
    Transfer, createEntry(accountID, signedAmount) the Entry,
    getAccount(id) the Account and fails with NotFound if absent,
    updateAccount(id, newBalance) the updated Account. *)
Definition CreateTransfer (q : Queries) (ctx : Context) (arg : CreateTransferParams.t)
    : World -> (Transfer.t * option error) * World :=
  run_stmt (db q) (createTransfer arg) Transfer.zero (fun t =>
    let x := Transfer.mk (CreateTransferParams.FromAccountID arg)
                         (CreateTransferParams.ToAccountID arg)
                         (CreateTransferParams.Amount arg) in
    ((x, None), add_transfer x t)).

Definition CreateEntry (q : Queries) (ctx : Context) (arg : CreateEntryParams.t)
    : World -> (Entry.t * option error) * World :=
  run_stmt (db q) (createEntry arg) Entry.zero (fun t =>
    let x := Entry.mk (CreateEntryParams.AccountID arg) (CreateEntryParams.Amount arg) in
    ((x, None), add_entry x t)).

Definition GetAccount (q : Queries) (ctx : Context) (id : Z)
    : World -> (Account.t * option error) * World :=
  run_stmt (db q) (getAccount id) Account.zero (fun t =>
    match find_account id t with
    | Some a => ((a, None), t)
    | None => ((Account.zero, Some ErrNoRows), t)
    end).

Definition UpdateAccount (q : Queries) (ctx : Context) (arg : UpdateAccountParams.t)
    : World -> (Account.t * option error) * World :=
  run_stmt (db q) (updateAccount arg) Account.zero (fun t =>
    match find_account (UpdateAccountParams.ID arg) t with
    | Some a =>
      let a' := Account.with_Balance (UpdateAccountParams.Balance arg) a in
      ((a', None), put_account (UpdateAccountParams.ID arg) a' t)
    | None => ((Account.zero, Some ErrNoRows), t)
    end).

(** ** Go code with captured variables

    [Go C A] is a computation that returns an [A], may change the world,
    and may assign to the variables [C] it shares with its caller (what a
    Go closure captures). *)

Definition Go (C A : Type) : Type := C -> World -> A * C * World.

Definition ret {C A : Type} (a : A) : Go C A := fun c w => (a, c, w).

Definition bind {C A B : Type} (m : Go C A) (k : A -> Go C B) : Go C B :=
  fun c w => let '(a, c', w') := m c w in k a c' w'.

Definition io {C A : Type} (f : World -> A * World) : Go C A :=
  fun c w => let '(a, w') := f w in (a, c, w').

Definition assign {C : Type} (f : C -> C) : Go C unit :=
  fun c w => (tt, f c, w).

Declare Scope go_scope.
Delimit Scope go_scope with go.

Notation "x <- m ;; k" := (bind m (fun x => k))
  (at level 100, m at next level, right associativity) : go_scope.
Notation "'do' a , b <- m ;; k" := (bind m (fun ab => let '(a, b) := ab in k))
  (at level 100, a name, b name, m at next level, right associativity) : go_scope.
Notation "m ;; k" := (bind m (fun _ => k))
  (at level 100, right associativity) : go_scope.
(** [if err != nil { return err }] *)
Notation "'return_if_err' err ;; k" :=
  (match err with Some e => ret (Some e) | None => k end)
  (at level 100, err at next level, right associativity) : go_scope.

(** [fmt.Println(txName, msg)]: a nil interface value prints as "<nil>". *)
Definition Println {C : Type} (txName : option string) (msg : string) : Go C unit :=
  io (fun w => (tt, print (default "<nil>" txName +:+ " " +:+ msg) w)).

(** ** store.go *)

Record Store : Type := mkStore { store_db : sqlDB; store_Queries : Queries }.

Definition NewStore (d : sqlDB) : Store :=
  mkStore d (New (OnDB d)).

Definition execTx {C : Type} (store : Store) (ctx : Context)
    (fn : Queries -> Go C (option error)) : Go C (option error) :=
  (do tx, err <- io (BeginTx (store_db store) ctx) ;;
   return_if_err err ;;
   let q := New (OnTx tx) in
   err <- fn q ;;
   match err with
   | Some e =>
     rbErr <- io (Rollback tx) ;;
     match rbErr with
     | Some rb => ret (Some (Errorf_tx_rb e rb))
     | None => ret (Some e)
     end
   | None => io (Commit tx)
   end)%go.

Module TransferTxParams.
Record t : Type := mk { FromAccountID : Z; ToAccountID : Z; Amount : Z }.
End TransferTxParams.

Module TransferTxResult.
Record t : Type := mk {
  Transfer : Transfer.t;
  FromAccount : Account.t;
  ToAccount : Account.t;
  FromEntry : Entry.t;
  ToEntry : Entry.t
}.
Definition zero : t :=
  mk Transfer.zero Account.zero Account.zero Entry.zero Entry.zero.
Definition set_Transfer (x : Transfer.t) (r : t) : t :=
  mk x (FromAccount r) (ToAccount r) (FromEntry r) (ToEntry r).
Definition set_FromAccount (x : Account.t) (r : t) : t :=
  mk (Transfer r) x (ToAccount r) (FromEntry r) (ToEntry r).
Definition set_ToAccount (x : Account.t) (r : t) : t :=
  mk (Transfer r) (FromAccount r) x (FromEntry r) (ToEntry r).
Definition set_FromEntry (x : Entry.t) (r : t) : t :=
  mk (Transfer r) (FromAccount r) (ToAccount r) x (ToEntry r).
Definition set_ToEntry (x : Entry.t) (r : t) : t :=
  mk (Transfer r) (FromAccount r) (ToAccount r) (FromEntry r) x.
End TransferTxResult.

(** The callback [TransferTx] hands to [execTx]; it assigns to the
    [result] variable of the enclosing function. *)
Definition TransferTx_fn (ctx : Context) (arg : TransferTxParams.t) (q : Queries)
    : Go TransferTxResult.t (option error) :=
  (let txName := Value ctx txKey in
   Println txName "create transfer" ;;
   do x, err <- io (CreateTransfer q ctx
       (CreateTransferParams.mk (TransferTxParams.FromAccountID arg)
                                (TransferTxParams.ToAccountID arg)
                                (TransferTxParams.Amount arg))) ;;
   assign (TransferTxResult.set_Transfer x) ;;
   return_if_err err ;;
   Println txName "create entry 1" ;;
   do x, err <- io (CreateEntry q ctx
       (CreateEntryParams.mk (TransferTxParams.FromAccountID arg)
                             (neg64 (TransferTxParams.Amount arg)))) ;;
   assign (TransferTxResult.set_FromEntry x) ;;
   return_if_err err ;;
   Println txName "create entry 2" ;;
   do x, err <- io (CreateEntry q ctx
       (CreateEntryParams.mk (TransferTxParams.ToAccountID arg)
                             (TransferTxParams.Amount arg))) ;;
   assign (TransferTxResult.set_ToEntry x) ;;
   return_if_err err ;;
   Println txName "get account 1" ;;
   do account1, err <- io (GetAccount q ctx (TransferTxParams.FromAccountID arg)) ;;
   return_if_err err ;;
   Println txName "update account 1" ;;
   do x, err <- io (UpdateAccount q ctx
       (UpdateAccountParams.mk (TransferTxParams.FromAccountID arg)
                               (sub64 (Account.Balance account1) (TransferTxParams.Amount arg)))) ;;
   assign (TransferTxResult.set_FromAccount x) ;;
   return_if_err err ;;
   Println txName "get account 2" ;;
   do account2, err <- io (GetAccount q ctx (TransferTxParams.ToAccountID arg)) ;;
   return_if_err err ;;
   Println txName "update account 2" ;;
   do x, err <- io (UpdateAccount q ctx
       (UpdateAccountParams.mk (TransferTxParams.ToAccountID arg)
                               (add64 (Account.Balance account2) (TransferTxParams.Amount arg)))) ;;
   assign (TransferTxResult.set_ToAccount x) ;;
   return_if_err err ;;
   ret None)%go.

Definition TransferTx (store : Store) (ctx : Context) (arg : TransferTxParams.t)
    (w : World) : (TransferTxResult.t * option error) * World :=
  let '(err, result, w') :=
    execTx store ctx (TransferTx_fn ctx arg) TransferTxResult.zero w in
  ((result, err), w').

(** ** Observations on a run *)

Definition result_of (r : (TransferTxResult.t * option error) * World) : TransferTxResult.t :=
  fst (fst r).
Definition error_of (r : (TransferTxResult.t * option error) * World) : option error :=
  snd (fst r).
Definition world_of (r : (TransferTxResult.t * option error) * World) : World :=
  snd r.

(** A callback that also counts how often it is invoked, in a counter it
    shares with its caller. *)
Definition counted {C : Type} (fn : Queries -> Go C (option error)) (q : Queries)
    : Go (nat * C) (option error) :=
  fun nc w => let '(err, c', w') := fn q (snd nc) w in (err, (S (fst nc), c'), w').

Definition calls {C A : Type} (r : A * (nat * C) * World) : nat := fst (snd (fst r)).

Definition is_write (s : Stmt) : bool :=
  match s with
  | getAccount _ => false
  | _ => true
  end.

Definition stmts_of (evs : list Event) : list Stmt :=
  omap (fun ev : Event => match fst ev with CStmt s => Some s | _ => None end) evs.

(** The accounts whose balance was written, in the order of the writes. *)
Definition balance_updates (evs : list Event) : list Z :=
  omap (fun ev : Event =>
          match fst ev with
          | CStmt (updateAccount p) => Some (UpdateAccountParams.ID p)
          | _ => None
          end) evs.

Definition is_stmt (ev : Event) : bool :=
  match fst ev with CStmt _ => true | _ => false end.

(** The events of one transaction: a failed begin alone, or a begin, then
    statements only, then one commit or rollback. *)
Definition in_one_transaction (evs : list Event) : bool :=
  match evs with
  | [(CBegin, Some _)] => true
  | (CBegin, None) :: rest =>
    match rev rest with
    | (CCommit, _) :: body | (CRollback, _) :: body => forallb is_stmt body
    | _ => false
    end
  | _ => false
  end.

(** The statements of a transfer in the order of the source text; each
    balance written is computed from the balance the transaction reads
    just before. *)
Definition planned_stmts (arg : TransferTxParams.t) (t : Tables) : list Stmt :=
  let from := TransferTxParams.FromAccountID arg in
  let to := TransferTxParams.ToAccountID arg in
  let amount := TransferTxParams.Amount arg in
  let account1 := default Account.zero (find_account from t) in
  let balance1 := sub64 (Account.Balance account1) amount in
  let t1 := put_account from (Account.with_Balance balance1 account1) t in
  let account2 := default Account.zero (find_account to t1) in
  [ createTransfer (CreateTransferParams.mk from to amount);
    createEntry (CreateEntryParams.mk from (neg64 amount));
    createEntry (CreateEntryParams.mk to amount);
    getAccount from;
    updateAccount (UpdateAccountParams.mk from balance1);
    getAccount to;
    updateAccount (UpdateAccountParams.mk to (add64 (Account.Balance account2) amount)) ].

(** No failure is injected. *)
Definition no_fault (w : World) : Prop := Forall (fun f => f = None) (script w).

(** ** Three statements of the specification, as it words them *)

(** The deadlock-avoidance rule: the account with the smaller id first. *)
Definition ordering_rule (arg : TransferTxParams.t) : list Z :=
  let from := TransferTxParams.FromAccountID arg in
  let to := TransferTxParams.ToAccountID arg in
  if from <? to then [from; to] else [to; from].

Definition ordering_claim (store : Store) (ctx : Context) (arg : TransferTxParams.t)
    (w : World) : Prop :=
  let r := TransferTx store ctx arg w in
  error_of r = None ->
  balance_updates (events_since w (world_of r)) = ordering_rule arg.

(** The pre-check: a non-positive amount or a self-transfer is rejected
    before any write. *)
Definition validation_claim (store : Store) (ctx : Context) (arg : TransferTxParams.t)
    (w : World) : Prop :=
  let r := TransferTx store ctx arg w in
  TransferTxParams.Amount arg <= 0
  \/ TransferTxParams.FromAccountID arg = TransferTxParams.ToAccountID arg ->
  error_of r <> None
  /\ filter (fun s => is_write s = true) (stmts_of (events_since w (world_of r))) = []
  /\ committed (world_of r) = committed w.

(** The returned balances, over the integers. *)
Definition balances_claim (store : Store) (ctx : Context) (arg : TransferTxParams.t)
    (w : World) : Prop :=
  let from := TransferTxParams.FromAccountID arg in
  let to := TransferTxParams.ToAccountID arg in
  let amount := TransferTxParams.Amount arg in
  let r := TransferTx store ctx arg w in
  forall a1 a2,
    0 < amount -> from <> to ->
    find_account from (committed w) = Some a1 ->
    find_account to (committed w) = Some a2 ->
    error_of r = None ->
    Account.Balance (TransferTxResult.FromAccount (result_of r)) = Account.Balance a1 - amount
    /\ Account.Balance (TransferTxResult.ToAccount (result_of r)) = Account.Balance a2 + amount.

(** ** Worked scenarios *)

Definition acct (id balance : Z) : Account.t := Account.mk id "owner" balance "USD".

Definition bank (l : list Account.t) : Tables :=
  mkTables (list_to_map (map (fun a => (Account.ID a, a)) l)) [] [].

Definition world0 (t : Tables) (faults : list (option error)) : World :=
  mkWorld t None faults [] [] [] false.

Definition balances (t : Tables) (ids : list Z) : list (option Z) :=
  map (fun id => Account.Balance <$> find_account id t) ids.

Definition demo_store : Store := NewStore TheDB.
Definition demo_ctx : Context := mkContext (Some "tx 1").

(** Balances {A:100, B:50}, nothing injected. *)
Definition demo_world : World := world0 (bank [acct 1 100; acct 2 50]) [].

(** The same bank where the third write, the destination entry, fails. *)
Definition faulty_world : World :=
  world0 (bank [acct 1 100; acct 2 50]) [None; None; None; Some (ErrDriver "disk full")].

(** The same bank where the transaction cannot begin. *)
Definition offline_world : World :=
  world0 (bank [acct 1 100; acct 2 50]) [Some (ErrDriver "connection refused")].

(** The same bank where the destination entry fails and so does the
    rollback. *)
Definition broken_world : World :=
  world0 (bank [acct 1 100; acct 2 50])
    [None; None; None; Some (ErrDriver "disk full"); Some (ErrDriver "connection lost")].

(** ** The effect of a transfer on the tables *)

(** The account row [UpdateAccount] writes back for the source and for
    the destination. *)
Definition debit (amount : Z) (a : Account.t) : Account.t :=
  Account.with_Balance (sub64 (Account.Balance a) amount) a.

Definition credit (amount : Z) (a : Account.t) : Account.t :=
  Account.with_Balance (add64 (Account.Balance a) amount) a.

(** The tables after the seven statements of a transfer, where [a1] and
    [a2] are the rows the two reads return. *)
Definition transferred (arg : TransferTxParams.t) (a1 a2 : Account.t) (t : Tables) : Tables :=
  let from := TransferTxParams.FromAccountID arg in
  let to := TransferTxParams.ToAccountID arg in
  let amount := TransferTxParams.Amount arg in
  put_account to (credit amount a2)
    (put_account from (debit amount a1)
       (add_entry (Entry.mk to amount)
          (add_entry (Entry.mk from (neg64 amount))
             (add_transfer (Transfer.mk from to amount) t)))).

(** Every stored balance is an int64. *)
Definition balances_in_range (t : Tables) : Prop :=
  forall id a, find_account id t = Some a -> in_int64 (Account.Balance a).



(** A bank with a third account, and one whose commit fails. *)
Definition three_accounts_world : World :=
  world0 (bank [acct 1 100; acct 2 50; acct 3 7]) [].

Definition commit_fails_world : World :=
  world0 (bank [acct 1 100; acct 2 50])
    (replicate 8 None ++ [Some (ErrDriver "commit failed")]).

(** The same, where the commit that reports the failure has installed
    the writes all the same. *)
Definition commit_lands_world : World :=
  mkWorld (bank [acct 1 100; acct 2 50]) None
    (replicate 8 None ++ [Some (ErrDriver "commit failed")]) [] [] [] true.

(** A bank whose first account holds the least int64. *)
Definition overdrawn_world : World :=
  world0 (bank [acct 1 MinInt64; acct 2 0]) [].

(** * Proofs *)

#[local] Arguments wrap64 : simpl never.
#[local] Arguments sub64 : simpl never.
#[local] Arguments add64 : simpl never.
#[local] Arguments neg64 : simpl never.
#[local] Arguments String.append : simpl never.

(** ** int64 *)

Lemma wrap64_id z : in_int64 z -> wrap64 z = z.
Proof.
  unfold in_int64, MinInt64, MaxInt64, wrap64. intros H.
  rewrite Z.mod_small by lia. lia.
Qed.

Lemma wrap64_range z : in_int64 (wrap64 z).
Proof.
  unfold in_int64, MinInt64, MaxInt64, wrap64.
  pose proof (Z.mod_pos_bound (z + 2 ^ 63) (2 ^ 64)). lia.
Qed.

(** A debit followed by a credit of the same amount cancels, overflow or
    not. *)
Lemma wrap64_add_cancel b a : wrap64 (wrap64 (b - a) + a) = wrap64 b.
Proof.
  unfold wrap64. f_equal.
  replace ((b - a + 2 ^ 63) mod 2 ^ 64 - 2 ^ 63 + a + 2 ^ 63)
    with ((b - a + 2 ^ 63) mod 2 ^ 64 + a) by lia.
  rewrite Zplus_mod_idemp_l. f_equal. lia.
Qed.

Lemma neg64_exact a : in_int64 a -> a <> MinInt64 -> neg64 a = - a.
Proof.
  unfold neg64, in_int64, MinInt64, MaxInt64. intros H Hne.
  apply wrap64_id. unfold in_int64, MinInt64, MaxInt64. lia.
Qed.

Example neg64_MinInt64 : neg64 MinInt64 = MinInt64.
Proof. reflexivity. Qed.

(** ** Strings and logs *)

Lemma string_app_assoc (a b c : string) : (a +:+ b) +:+ c = a +:+ b +:+ c.
Proof.
  induction a as [|x a IH]; [reflexivity|].
  change (String x ((a +:+ b) +:+ c) = String x (a +:+ b +:+ c)).
  now rewrite IH.
Qed.

Lemma string_app_nil_r (a : string) : a +:+ EmptyString = a.
Proof.
  induction a as [|x a IH]; [reflexivity|].
  change (String x (a +:+ EmptyString) = String x a).
  now rewrite IH.
Qed.

Lemma substring_of_mid pre s post : substring_of s (pre +:+ s +:+ post).
Proof. exists pre, post. reflexivity. Qed.

Lemma events_since_app w w' evs :
  log w' = log w ++ evs -> events_since w w' = evs.
Proof.
  intros H. unfold events_since. rewrite H. apply drop_app_length.
Qed.

Lemma no_fault_iter (l : list (option error)) (k : nat) :
  Forall (fun f => f = None) l -> hd None (Nat.iter k tail l) = None.
Proof.
  intros H. assert (Hk : Forall (fun f => f = None) (Nat.iter k tail l)).
  { induction k as [|k IH]; [exact H|].
    change (Forall (fun f : option error => f = None) (tail (Nat.iter k tail l))).
    destruct (Nat.iter k tail l); [constructor | now inversion IH]. }
  destruct (Nat.iter k tail l); [reflexivity | now inversion Hk].
Qed.

(** ** The scenarios of the specification *)

Example scenario_transfer_30 :
  let r := TransferTx demo_store demo_ctx (TransferTxParams.mk 1 2 30) demo_world in
  result_of r =
    TransferTxResult.mk (Transfer.mk 1 2 30) (acct 1 70) (acct 2 80)
                        (Entry.mk 1 (-30)) (Entry.mk 2 30)
  /\ error_of r = None
  /\ balances (committed (world_of r)) [1; 2] = [Some 70; Some 80].
Proof. vm_compute. repeat split. Qed.

Example scenario_third_write_fails :
  let r := TransferTx demo_store demo_ctx (TransferTxParams.mk 1 2 30) faulty_world in
  error_of r = Some (ErrDriver "disk full")
  /\ committed (world_of r) = committed faulty_world
  /\ map fst (events_since faulty_world (world_of r)) =
       [CBegin;
        CStmt (createTransfer (CreateTransferParams.mk 1 2 30));
        CStmt (createEntry (CreateEntryParams.mk 1 (-30)));
        CStmt (createEntry (CreateEntryParams.mk 2 30));
        CRollback].
Proof. vm_compute. repeat split. Qed.

Example scenario_stdout :
  stdout (world_of (TransferTx demo_store (mkContext None) (TransferTxParams.mk 1 9 30) demo_world)) =
    ["<nil> create transfer"; "<nil> create entry 1"; "<nil> create entry 2";
     "<nil> get account 1"; "<nil> update account 1"; "<nil> get account 2"].
Proof. vm_compute. reflexivity. Qed.

(** ** execTx *)

Section ExecTx.
Context {C : Type}.
Variables (store : Store) (ctx : Context) (fn : Queries -> Go C (option error)).

Lemma BeginTx_logs d w :
  log (snd (BeginTx d ctx w)) = log w ++ [(CBegin, snd (fst (BeginTx d ctx w)))].
Proof.
  unfold BeginTx, next_fault. cbn. destruct (hd None (script w)); reflexivity.
Qed.

Lemma BeginTx_committed d w : committed (snd (BeginTx d ctx w)) = committed w.
Proof.
  unfold BeginTx, next_fault. cbn. destruct (hd None (script w)); reflexivity.
Qed.

Lemma Commit_logs tx w :
  log (snd (Commit tx w)) = log w ++ [(CCommit, fst (Commit tx w))].
Proof.
  unfold Commit, next_fault. cbn.
  destruct (pending w); [destruct (hd None (script w))|]; cbn;
    destruct (failed_commit_lands w); reflexivity.
Qed.

Lemma Rollback_logs tx w :
  log (snd (Rollback tx w)) = log w ++ [(CRollback, fst (Rollback tx w))].
Proof.
  unfold Rollback, next_fault. cbn.
  destruct (pending w); [destruct (hd None (script w))|]; reflexivity.
Qed.

Lemma Rollback_committed tx w : committed (snd (Rollback tx w)) = committed w.
Proof.
  unfold Rollback, next_fault. cbn.
  destruct (pending w); [destruct (hd None (script w))|]; reflexivity.
Qed.

(** C10: when beginning the transaction fails with [e], [execTx] returns
    exactly [e]; the callback is not invoked (the captured variables are
    returned untouched, whatever the callback is, and a counting callback
    counts nothing); the only call the store receives is the failed
    begin, so neither commit nor rollback is attempted. *)
Theorem execTx_begin_error (c : C) (w : World) (e : error) :
  snd (fst (BeginTx (store_db store) ctx w)) = Some e ->
  let w1 := snd (BeginTx (store_db store) ctx w) in
  execTx store ctx fn c w = (Some e, c, w1)
  /\ events_since w w1 = [(CBegin, Some e)]
  /\ forall n, calls (execTx store ctx (counted fn) (n, c) w) = n.
Proof.
  intros Hb w1. subst w1.
  pose proof (BeginTx_logs (store_db store) w) as Hl. rewrite Hb in Hl.
  unfold execTx, bind, io, ret, calls.
  destruct (BeginTx (store_db store) ctx w) as [[tx err] w1].
  cbn in Hb, Hl |- *. subst err.
  repeat split. now apply events_since_app.
Qed.

(** C7: once the transaction has begun, [execTx] invokes the callback
    exactly once, whether it fails or not (a counting callback counts
    one more); and when that one invocation returns no error, [execTx]
    is that invocation followed by [tx.Commit()]: the store receives one
    commit and [execTx] returns the commit's error value. *)
Theorem execTx_calls_once_then_commits (c : C) (w : World) :
  snd (fst (BeginTx (store_db store) ctx w)) = None ->
  let tx := fst (fst (BeginTx (store_db store) ctx w)) in
  let w1 := snd (BeginTx (store_db store) ctx w) in
  (forall n, calls (execTx store ctx (counted fn) (n, c) w) = S n)
  /\ forall c2 w2, fn (New (OnTx tx)) c w1 = (None, c2, w2) ->
       execTx store ctx fn c w = (fst (Commit tx w2), c2, snd (Commit tx w2))
       /\ events_since w2 (snd (Commit tx w2)) = [(CCommit, fst (Commit tx w2))].
Proof.
  intros Hb tx w1. subst tx w1.
  unfold execTx, bind, io, ret, calls, counted.
  destruct (BeginTx (store_db store) ctx w) as [[tx err] w1].
  cbn -[Rollback Commit] in Hb |- *. subst err. split.
  - intros n. cbn -[Rollback Commit].
    destruct (fn (New (OnTx tx)) c w1) as [[[e|] c2] w2]; cbn -[Rollback Commit].
    + destruct (Rollback tx w2) as [[rb|] w3]; reflexivity.
    + destruct (Commit tx w2); reflexivity.
  - intros c2 w2 Hfn. rewrite Hfn. split.
    + destruct (Commit tx w2); reflexivity.
    + apply events_since_app, Commit_logs.
Qed.

(** C6: when the unit of work returns the error [e], [execTx] rolls
    back; if the rollback succeeds it returns exactly [e]; if the
    rollback fails with [rb] it returns one error whose message is
    "tx err: <e>, rb err: <rb>", in which the messages of both [e] and
    [rb] occur. *)
Theorem execTx_unit_of_work_error (c : C) (w : World) (e : error) (c2 : C) (w2 : World) :
  snd (fst (BeginTx (store_db store) ctx w)) = None ->
  let tx := fst (fst (BeginTx (store_db store) ctx w)) in
  let w1 := snd (BeginTx (store_db store) ctx w) in
  fn (New (OnTx tx)) c w1 = (Some e, c2, w2) ->
  let w3 := snd (Rollback tx w2) in
  events_since w2 w3 = [(CRollback, fst (Rollback tx w2))]
  /\ (fst (Rollback tx w2) = None -> execTx store ctx fn c w = (Some e, c2, w3))
  /\ (forall rb, fst (Rollback tx w2) = Some rb ->
        exists combined,
          execTx store ctx fn c w = (Some combined, c2, w3)
          /\ Error combined = "tx err: " +:+ Error e +:+ ", rb err: " +:+ Error rb
          /\ substring_of (Error e) (Error combined)
          /\ substring_of (Error rb) (Error combined)).
Proof.
  intros Hb tx w1 Hfn w3. subst tx w1 w3.
  split; [apply events_since_app, Rollback_logs|].
  unfold execTx, bind, io, ret.
  destruct (BeginTx (store_db store) ctx w) as [[tx err] w1].
  cbn -[Rollback Commit] in Hb, Hfn |- *. subst err. rewrite Hfn.
  destruct (Rollback tx w2) as [rbErr w3]. cbn. split.
  - intros ->. reflexivity.
  - intros rb ->. exists (Errorf_tx_rb e rb). repeat split.
    + apply substring_of_mid.
    + exists ("tx err: " +:+ Error e +:+ ", rb err: "), EmptyString.
      unfold Errorf_tx_rb, Error at 1.
      rewrite string_app_nil_r. now rewrite !string_app_assoc.
Qed.
End ExecTx.

Lemma execTx_begin_error_witness :
  let fn := TransferTx_fn demo_ctx (TransferTxParams.mk 1 2 30) in
  let w1 := snd (BeginTx (store_db demo_store) demo_ctx offline_world) in
  execTx demo_store demo_ctx fn TransferTxResult.zero offline_world =
    (Some (ErrDriver "connection refused"), TransferTxResult.zero, w1)
  /\ events_since offline_world w1 = [(CBegin, Some (ErrDriver "connection refused"))]
  /\ calls (execTx demo_store demo_ctx (counted fn) (0%nat, TransferTxResult.zero) offline_world)
     = 0%nat.
Proof.
  intros fn w1.
  destruct (execTx_begin_error demo_store demo_ctx fn TransferTxResult.zero offline_world
              (ErrDriver "connection refused")) as (H1 & H2 & H3).
  - reflexivity.
  - split; [exact H1 | split; [exact H2 | exact (H3 0%nat)]].
Defined.

Lemma execTx_calls_once_then_commits_witness :
  calls (execTx demo_store demo_ctx
           (counted (TransferTx_fn demo_ctx (TransferTxParams.mk 1 2 30)))
           (0%nat, TransferTxResult.zero) demo_world) = 1%nat
  /\ fst (fst (execTx demo_store demo_ctx (TransferTx_fn demo_ctx (TransferTxParams.mk 1 2 30))
                 TransferTxResult.zero demo_world)) = None.
Proof.
  pose (fn := TransferTx_fn demo_ctx (TransferTxParams.mk 1 2 30)).
  pose (w1 := snd (BeginTx (store_db demo_store) demo_ctx demo_world)).
  pose (run := fn (New (OnTx TheTx)) TransferTxResult.zero w1).
  destruct (execTx_calls_once_then_commits demo_store demo_ctx fn
              TransferTxResult.zero demo_world) as (H1 & H2).
  - reflexivity.
  - split; [exact (H1 0%nat)|].
    destruct (H2 (snd (fst run)) (snd run)) as (H3 & _).
    + vm_compute. reflexivity.
    + unfold fn in H3. rewrite H3. vm_compute. reflexivity.
Defined.

Lemma execTx_unit_of_work_error_witness :
  exists combined,
    fst (fst (execTx demo_store demo_ctx (TransferTx_fn demo_ctx (TransferTxParams.mk 1 2 30))
                TransferTxResult.zero broken_world)) = Some combined
    /\ Error combined = "tx err: disk full, rb err: connection lost".
Proof.
  pose (fn := TransferTx_fn demo_ctx (TransferTxParams.mk 1 2 30)).
  pose (w1 := snd (BeginTx (store_db demo_store) demo_ctx broken_world)).
  pose (run := fn (New (OnTx TheTx)) TransferTxResult.zero w1).
  destruct (execTx_unit_of_work_error demo_store demo_ctx fn TransferTxResult.zero
              broken_world (ErrDriver "disk full") (snd (fst run)) (snd run))
    as (_ & _ & H).
  - reflexivity.
  - vm_compute. reflexivity.
  - destruct (H (ErrDriver "connection lost")) as (combined & Hrun & Hmsg & _).
    + vm_compute. reflexivity.
    + exists combined. split; [unfold fn in Hrun; now rewrite Hrun | exact Hmsg].
Defined.

(** ** TransferTx: running the transfer symbolically

    [tx_run] unfolds the transfer down to the calls to the driver and
    splits on what decides its course: the next entry of the failure
    script and whether an account is found. *)

Ltac tx_unfold :=
  unfold result_of, error_of, world_of, TransferTx, execTx, TransferTx_fn,
    bind, io, ret, assign, Println, BeginTx, Commit, Rollback,
    CreateTransfer, CreateEntry, GetAccount, UpdateAccount, run_stmt,
    next_fault, Value, planned_stmts, find_account, put_account in *.

Ltac tx_step :=
  match goal with
  | H : hd None ?s = _ |- context [hd None ?s] => rewrite H
  | H : ?m !! ?i = _ |- context [?m !! ?i] => rewrite H
  | |- context [<[?i:=_]> _ !! ?i] => rewrite lookup_insert_eq
  | H : ?i <> ?j |- context [<[?i:=_]> _ !! ?j] => rewrite (lookup_insert_ne _ i j _ H)
  | |- context [match hd None ?s with _ => _ end] => destruct (hd None s) eqn:?
  | |- context [match @lookup _ _ _ _ ?i ?m with _ => _ end] => destruct (m !! i) eqn:?
  | |- context [default _ (@lookup _ _ _ _ ?i ?m)] => destruct (m !! i) eqn:?
  | |- context [if failed_commit_lands ?w then _ else _] =>
    destruct (failed_commit_lands w) eqn:?
  end.

Ltac tx_run := tx_unfold; cbn; repeat (tx_step; cbn).

(** Bring the events recorded since the start into the form of a list. *)
Ltac tx_events :=
  unfold events_since, sent_since; cbn; rewrite <- ?app_assoc; cbn;
  rewrite ?drop_app_length, ?drop_all.

(** C8: for every request and every store, the statements the transfer
    issues are, in this order, the Transfer insert, the debit Entry insert
    for the source, the credit Entry insert for the destination, then for
    the source and after it for the destination a read of the account
    followed by the write of the balance computed from that read; a run
    that fails stops somewhere along this sequence, a run that succeeds
    issues all of it; every one of these statements, reads and writes
    alike, is sent through the handle of the transaction this run began,
    and all of them lie between the begin and the commit or rollback of
    that transaction. *)
Theorem statements_in_order store ctx arg w :
  let r := TransferTx store ctx arg w in
  let evs := events_since w (world_of r) in
  let tx := fst (fst (BeginTx (store_db store) ctx w)) in
  stmts_of evs `prefix_of` planned_stmts arg (committed w)
  /\ (error_of r = None -> stmts_of evs = planned_stmts arg (committed w))
  /\ in_one_transaction evs = true
  /\ sent_since w (world_of r) = map (fun s => (OnTx tx, s)) (stmts_of evs).
Proof.
  tx_run.
  all: tx_events.
  all: split; [eexists; reflexivity | split; [intros E | split; reflexivity]].
  all: first [discriminate E | reflexivity].
Qed.

Lemma statements_in_order_witness :
  stmts_of (events_since demo_world
              (world_of (TransferTx demo_store demo_ctx (TransferTxParams.mk 1 2 30) demo_world))) =
    [ createTransfer (CreateTransferParams.mk 1 2 30);
      createEntry (CreateEntryParams.mk 1 (-30));
      createEntry (CreateEntryParams.mk 2 30);
      getAccount 1;
      updateAccount (UpdateAccountParams.mk 1 70);
      getAccount 2;
      updateAccount (UpdateAccountParams.mk 2 80) ]
  /\ map fst (sent_since demo_world
       (world_of (TransferTx demo_store demo_ctx (TransferTxParams.mk 1 2 30) demo_world))) =
     replicate 7 (OnTx TheTx).
Proof.
  destruct (statements_in_order demo_store demo_ctx (TransferTxParams.mk 1 2 30) demo_world)
    as (_ & H & _ & Hs).
  split.
  - rewrite H by reflexivity. vm_compute. reflexivity.
  - rewrite Hs. vm_compute. reflexivity.
Defined.

(** C1, as the specification states it, fails: in a transfer from
    account 2 to account 1 the rule asks for account 1 first, and the
    code writes account 2 first. *)
Lemma ordering_claim_counterexample :
  ~ ordering_claim demo_store demo_ctx (TransferTxParams.mk 2 1 10) demo_world.
Proof.
  unfold ordering_claim. intros H. specialize (H eq_refl).
  vm_compute in H. discriminate H.
Qed.

(** C1 (amended): in every transfer the balance of the source account is
    written before the balance of the destination account, whatever the
    order of the two ids: the balance writes of a run are a prefix of
    [source; destination], and exactly these two when the run succeeds. *)
Theorem source_balance_updated_first store ctx arg w :
  let r := TransferTx store ctx arg w in
  let evs := events_since w (world_of r) in
  balance_updates evs `prefix_of`
    [TransferTxParams.FromAccountID arg; TransferTxParams.ToAccountID arg]
  /\ (error_of r = None ->
      balance_updates evs =
        [TransferTxParams.FromAccountID arg; TransferTxParams.ToAccountID arg]).
Proof.
  tx_run.
  all: tx_events.
  all: split; [eexists; reflexivity | intros E; first [discriminate E | reflexivity]].
Qed.

Lemma source_balance_updated_first_witness :
  balance_updates (events_since demo_world
     (world_of (TransferTx demo_store demo_ctx (TransferTxParams.mk 2 1 10) demo_world))) = [2; 1].
Proof.
  apply (source_balance_updated_first demo_store demo_ctx (TransferTxParams.mk 2 1 10) demo_world).
  reflexivity.
Defined.

(** C2: when one of the writes of a transfer (the transfer insert, an
    entry insert, a balance update) fails, [TransferTx] returns an error,
    the tables every observer sees are those from before the attempt, so
    that no balance, entry or transfer record differs and no part of the
    writes is visible, and no transaction is left open. *)
Theorem failed_write_aborts_transfer store ctx arg w s e :
  let r := TransferTx store ctx arg w in
  is_write s = true ->
  In (CStmt s, Some e) (events_since w (world_of r)) ->
  error_of r <> None
  /\ committed (world_of r) = committed w
  /\ pending (world_of r) = None.
Proof.
  intros r Hs. subst r. revert Hs.
  tx_run.
  all: tx_events.
  all: intros Hs Hin.
  all: try (repeat split; [discriminate | reflexivity ..]).
  all: exfalso; cbn in Hin; intuition congruence.
Qed.

Lemma failed_write_aborts_transfer_witness :
  let r := TransferTx demo_store demo_ctx (TransferTxParams.mk 1 2 30) faulty_world in
  error_of r <> None
  /\ committed (world_of r) = committed faulty_world
  /\ pending (world_of r) = None.
Proof.
  apply (failed_write_aborts_transfer demo_store demo_ctx (TransferTxParams.mk 1 2 30)
           faulty_world (createEntry (CreateEntryParams.mk 2 30)) (ErrDriver "disk full")).
  - reflexivity.
  - vm_compute. do 3 right. left. reflexivity.
Defined.

(** C3, as the specification states it, fails: a transfer of -5 and a
    transfer from an account to itself both run to the commit. *)
Lemma validation_claim_counterexample :
  ~ validation_claim demo_store demo_ctx (TransferTxParams.mk 1 2 (-5)) demo_world
  /\ ~ validation_claim demo_store demo_ctx (TransferTxParams.mk 1 1 30) demo_world.
Proof.
  unfold validation_claim. split; intros H.
  - destruct H as (H & _); [left; vm_compute; discriminate|]. now apply H.
  - destruct H as (H & _); [right; reflexivity|]. now apply H.
Qed.

Example scenario_transfer_minus_5 :
  let r := TransferTx demo_store demo_ctx (TransferTxParams.mk 1 2 (-5)) demo_world in
  error_of r = None /\ balances (committed (world_of r)) [1; 2] = [Some 105; Some 45].
Proof. vm_compute. split; reflexivity. Qed.

(** C3 (amended): [TransferTx] makes no check of the request; whatever
    the amount (positive or not) and whether or not the two ids are
    equal, when both accounts exist and no call to the store fails it
    returns no error, issues all its statements and commits them: the
    transfer record and the two entries are added, the source is debited
    and the destination credited (the credit applying to the debited row
    when the two are the same account), and these are the tables every
    observer sees afterwards. *)
Theorem TransferTx_runs_any_request store ctx arg w a1 a2 :
  let from := TransferTxParams.FromAccountID arg in
  let to := TransferTxParams.ToAccountID arg in
  let amount := TransferTxParams.Amount arg in
  let r := TransferTx store ctx arg w in
  no_fault w ->
  find_account from (committed w) = Some a1 ->
  find_account to (committed w) = Some a2 ->
  error_of r = None
  /\ stmts_of (events_since w (world_of r)) = planned_stmts arg (committed w)
  /\ transfers (committed (world_of r)) =
       transfers (committed w) ++ [Transfer.mk from to amount]
  /\ entries (committed (world_of r)) =
       entries (committed w) ++ [Entry.mk from (neg64 amount); Entry.mk to amount]
  /\ is_Some (find_account from (committed (world_of r)))
  /\ is_Some (find_account to (committed (world_of r)))
  /\ committed (world_of r) =
       transferred arg a1 (if decide (from = to) then debit amount a1 else a2) (committed w)
  /\ (from <> to ->
      find_account from (committed (world_of r)) = Some (debit amount a1)
      /\ find_account to (committed (world_of r)) = Some (credit amount a2))
  /\ (from = to ->
      find_account from (committed (world_of r)) = Some (credit amount (debit amount a1))).
Proof.
  intros from to amount r Hnf H1 H2. subst from to amount r.
  pose proof (no_fault_iter _ 0 Hnf) as F0. pose proof (no_fault_iter _ 1 Hnf) as F1.
  pose proof (no_fault_iter _ 2 Hnf) as F2. pose proof (no_fault_iter _ 3 Hnf) as F3.
  pose proof (no_fault_iter _ 4 Hnf) as F4. pose proof (no_fault_iter _ 5 Hnf) as F5.
  pose proof (no_fault_iter _ 6 Hnf) as F6. pose proof (no_fault_iter _ 7 Hnf) as F7.
  pose proof (no_fault_iter _ 8 Hnf) as F8. cbn in F0, F1, F2, F3, F4, F5, F6, F7, F8.
  destruct arg as [from to amount]; unfold transferred, debit, credit; cbn in *.
  destruct (decide (from = to)) as [E|E].
  - subst to. assert (a2 = a1) by congruence. subst a2.
    tx_run. tx_events. rewrite <- ?app_assoc.
    repeat split; rewrite ?lookup_insert_eq; eauto; contradiction.
  - tx_run. tx_events. rewrite <- ?app_assoc.
    repeat split; rewrite ?lookup_insert_eq; eauto; try congruence.
    all: rewrite lookup_insert_ne by congruence; rewrite lookup_insert_eq; eauto.
Qed.

Lemma TransferTx_runs_any_request_witness :
  let r := TransferTx demo_store demo_ctx (TransferTxParams.mk 1 2 (-5)) demo_world in
  error_of r = None
  /\ transfers (committed (world_of r)) = [Transfer.mk 1 2 (-5)]
  /\ entries (committed (world_of r)) = [Entry.mk 1 5; Entry.mk 2 (-5)]
  /\ find_account 1 (committed (world_of r)) = Some (acct 1 105)
  /\ find_account 2 (committed (world_of r)) = Some (acct 2 45).
Proof.
  destruct (TransferTx_runs_any_request demo_store demo_ctx (TransferTxParams.mk 1 2 (-5))
              demo_world (acct 1 100) (acct 2 50)) as (H1 & _ & H2 & H3 & _ & _ & _ & H4 & _).
  - constructor.
  - reflexivity.
  - reflexivity.
  - destruct H4 as [H5 H6]; [discriminate|].
    split; [exact H1 | split; [exact H2 | split; [exact H3 | split; [exact H5 | exact H6]]]].
Defined.

(** C4, as the specification states it, fails: a valid transfer of 1 out
    of an account whose balance is the least int64 returns that account
    with the greatest int64 as its balance. *)
Lemma balances_claim_counterexample :
  ~ balances_claim demo_store demo_ctx (TransferTxParams.mk 1 2 1)
      (world0 (bank [acct 1 MinInt64; acct 2 0]) []).
Proof.
  unfold balances_claim. intros H.
  destruct (H (acct 1 MinInt64) (acct 2 0)) as (H1 & _); try reflexivity.
  - discriminate.
  - vm_compute in H1. discriminate H1.
Qed.

(** C4 (amended): for every transfer between two distinct accounts that
    succeeds, the returned FromAccount carries its balance from before
    the transfer minus the amount and the returned ToAccount its balance
    from before plus the amount, both in int64 arithmetic; they are the
    exact difference and sum whenever these lie in the int64 range. *)
Theorem TransferTx_balances store ctx arg w a1 a2 :
  let from := TransferTxParams.FromAccountID arg in
  let to := TransferTxParams.ToAccountID arg in
  let amount := TransferTxParams.Amount arg in
  let r := TransferTx store ctx arg w in
  from <> to ->
  find_account from (committed w) = Some a1 ->
  find_account to (committed w) = Some a2 ->
  error_of r = None ->
  let b1 := Account.Balance (TransferTxResult.FromAccount (result_of r)) in
  let b2 := Account.Balance (TransferTxResult.ToAccount (result_of r)) in
  b1 = sub64 (Account.Balance a1) amount
  /\ b2 = add64 (Account.Balance a2) amount
  /\ (in_int64 (Account.Balance a1 - amount) -> b1 = Account.Balance a1 - amount)
  /\ (in_int64 (Account.Balance a2 + amount) -> b2 = Account.Balance a2 + amount).
Proof.
  intros from to amount r Hne H1 H2. subst from to amount r.
  destruct arg as [from to amount]; cbn in *.
  tx_run.
  all: intros E; try discriminate E.
  repeat split; intros Hr; unfold sub64, add64; now rewrite wrap64_id.
Qed.

Lemma TransferTx_balances_witness :
  let r := TransferTx demo_store demo_ctx (TransferTxParams.mk 1 2 30) demo_world in
  Account.Balance (TransferTxResult.FromAccount (result_of r)) = 100 - 30
  /\ Account.Balance (TransferTxResult.ToAccount (result_of r)) = 50 + 30.
Proof.
  destruct (TransferTx_balances demo_store demo_ctx (TransferTxParams.mk 1 2 30)
              demo_world (acct 1 100) (acct 2 50)) as (_ & _ & H1 & H2).
  - discriminate.
  - reflexivity.
  - reflexivity.
  - reflexivity.
  - split; [apply H1 | apply H2]; vm_compute; split; discriminate.
Defined.

(** C5: for every successful transfer of an amount a, the FromEntry is
    created on the source account with amount -a, the ToEntry on the
    destination account with amount +a, their amounts sum to zero, and
    they are the two entries the transfer adds to the store.  This holds
    for every int64 amount other than -2^63, whose negation is not an
    int64; every amount a request may carry (a > 0) is among them. *)
Theorem TransferTx_entries store ctx arg w :
  let from := TransferTxParams.FromAccountID arg in
  let to := TransferTxParams.ToAccountID arg in
  let amount := TransferTxParams.Amount arg in
  let r := TransferTx store ctx arg w in
  in_int64 amount ->
  amount <> MinInt64 ->
  error_of r = None ->
  let e1 := TransferTxResult.FromEntry (result_of r) in
  let e2 := TransferTxResult.ToEntry (result_of r) in
  e1 = Entry.mk from (- amount)
  /\ e2 = Entry.mk to amount
  /\ Entry.Amount e1 + Entry.Amount e2 = 0
  /\ entries (committed (world_of r)) = entries (committed w) ++ [e1; e2].
Proof.
  intros from to amount r Hr Hne. subst from to amount r.
  destruct arg as [from to amount]; cbn in *.
  pose proof (neg64_exact amount Hr Hne) as Hneg.
  tx_run.
  all: intros E; try discriminate E.
  rewrite <- app_assoc, Hneg. repeat split. lia.
Qed.

Lemma TransferTx_entries_witness :
  let r := TransferTx demo_store demo_ctx (TransferTxParams.mk 1 2 30) demo_world in
  TransferTxResult.FromEntry (result_of r) = Entry.mk 1 (- 30)
  /\ TransferTxResult.ToEntry (result_of r) = Entry.mk 2 30
  /\ Entry.Amount (TransferTxResult.FromEntry (result_of r))
     + Entry.Amount (TransferTxResult.ToEntry (result_of r)) = 0.
Proof.
  destruct (TransferTx_entries demo_store demo_ctx (TransferTxParams.mk 1 2 30) demo_world)
    as (H1 & H2 & H3 & _).
  - vm_compute. split; discriminate.
  - discriminate.
  - reflexivity.
  - split; [exact H1 | split; [exact H2 | exact H3]].
Defined.

(** C9: for every transfer from an account to itself that completes
    without error, the debit is applied first, the credit then reads the
    debited balance, and the two cancel: the balance returned last and the
    balance left in the store are the initial balance; the transfer record
    and the two entries, of the negated amount (Go's [-arg.Amount], which
    is exactly the opposite of the amount unless the amount is -2^63) and
    of the amount, are created all the same. *)
Theorem TransferTx_self_transfer store ctx id amount w a :
  let r := TransferTx store ctx (TransferTxParams.mk id id amount) w in
  find_account id (committed w) = Some a ->
  in_int64 (Account.Balance a) ->
  error_of r = None ->
  let debited := TransferTxResult.FromAccount (result_of r) in
  let credited := TransferTxResult.ToAccount (result_of r) in
  Account.Balance debited = sub64 (Account.Balance a) amount
  /\ Account.Balance credited = add64 (Account.Balance debited) amount
  /\ Account.Balance credited = Account.Balance a
  /\ find_account id (committed (world_of r)) = Some a
  /\ transfers (committed (world_of r)) =
       transfers (committed w) ++ [Transfer.mk id id amount]
  /\ entries (committed (world_of r)) =
       entries (committed w) ++ [Entry.mk id (neg64 amount); Entry.mk id amount]
  /\ (in_int64 amount -> amount <> MinInt64 -> neg64 amount = - amount).
Proof.
  intros r H1 Hr. subst r.
  tx_run.
  all: intros E; try discriminate E.
  assert (Hb : add64 (sub64 (Account.Balance a) amount) amount = Account.Balance a).
  { unfold add64, sub64. rewrite wrap64_add_cancel. now apply wrap64_id. }
  rewrite <- app_assoc. repeat split; try exact Hb; try apply neg64_exact; try assumption.
  f_equal. destruct a; cbn in *. unfold Account.with_Balance; cbn. now rewrite Hb.
Qed.

Lemma TransferTx_self_transfer_witness :
  let r := TransferTx demo_store demo_ctx (TransferTxParams.mk 1 1 30) demo_world in
  Account.Balance (TransferTxResult.FromAccount (result_of r)) = sub64 100 30
  /\ Account.Balance (TransferTxResult.ToAccount (result_of r)) = 100
  /\ find_account 1 (committed (world_of r)) = Some (acct 1 100)
  /\ entries (committed (world_of r)) = [Entry.mk 1 (neg64 30); Entry.mk 1 30].
Proof.
  destruct (TransferTx_self_transfer demo_store demo_ctx 1 30 demo_world (acct 1 100))
    as (H1 & _ & H3 & H4 & _ & H6 & _).
  - reflexivity.
  - vm_compute. split; discriminate.
  - reflexivity.
  - split; [exact H1 | split; [exact H3 | split; [exact H4 | exact H6]]].
Defined.

(** * Further properties of the code *)

(** ** More on execTx *)

Lemma Commit_pending tx w : pending (snd (Commit tx w)) = None.
Proof.
  unfold Commit, next_fault. cbn.
  destruct (pending w) eqn:E; [destruct (hd None (script w))|]; cbn; auto.
Qed.

Lemma Rollback_pending tx w : pending (snd (Rollback tx w)) = None.
Proof.
  unfold Rollback, next_fault. cbn.
  destruct (pending w) eqn:E; [destruct (hd None (script w))|]; cbn; auto.
Qed.

(** A commit installs the working copy as a whole or leaves the tables as
    they were; when it returns nil it has installed it. *)
Lemma Commit_committed tx w :
  (committed (snd (Commit tx w)) = committed w
   \/ pending w = Some (committed (snd (Commit tx w))))
  /\ (fst (Commit tx w) = None -> pending w = Some (committed (snd (Commit tx w)))).
Proof.
  unfold Commit, next_fault. cbn.
  destruct (pending w) eqn:E; [destruct (hd None (script w))|]; cbn;
    try destruct (failed_commit_lands w); cbn; split; auto; congruence.
Qed.

Section ExecTxMore.
Context {C : Type}.
Variables (store : Store) (ctx : Context) (fn : Queries -> Go C (option error)).

(** X1: [execTx] returns nil exactly when nothing failed: the transaction
    began, the callback returned nil and the commit returned nil. *)
Theorem execTx_returns_nil_iff (c : C) (w : World) :
  let b := BeginTx (store_db store) ctx w in
  let run := fn (New (OnTx (fst (fst b)))) c (snd b) in
  fst (fst (execTx store ctx fn c w)) = None <->
    snd (fst b) = None
    /\ fst (fst run) = None
    /\ fst (Commit (fst (fst b)) (snd run)) = None.
Proof.
  intros b run. subst b run.
  unfold execTx, bind, io, ret.
  destruct (BeginTx (store_db store) ctx w) as [[tx [e|]] w1]; cbn -[Rollback Commit].
  - split; [discriminate | intros (H & _); discriminate H].
  - destruct (fn (New (OnTx tx)) c w1) as [[[e|] c2] w2]; cbn -[Rollback Commit].
    + destruct (Rollback tx w2) as [[rb|] w3]; cbn;
        (split; [discriminate | intros (_ & H & _); discriminate H]).
    + destruct (Commit tx w2) as [ce w3]; cbn. tauto.
Qed.

(** X2: [execTx] never leaves the transaction open: once it has begun,
    it ends with exactly one call that closes the transaction, a commit
    when the callback returned nil and a rollback when it returned an
    error, and no transaction is pending afterwards. *)
Theorem execTx_ends_transaction (c : C) (w : World) :
  let b := BeginTx (store_db store) ctx w in
  let run := fn (New (OnTx (fst (fst b)))) c (snd b) in
  let r := execTx store ctx fn c w in
  snd (fst b) = None ->
  pending (snd r) = None
  /\ (fst (fst run) = None ->
      events_since (snd run) (snd r) = [(CCommit, fst (fst r))])
  /\ (fst (fst run) <> None ->
      exists rb, events_since (snd run) (snd r) = [(CRollback, rb)]).
Proof.
  intros b run r Hb. subst b run r.
  unfold execTx, bind, io, ret.
  destruct (BeginTx (store_db store) ctx w) as [[tx err] w1].
  cbn -[Rollback Commit] in Hb |- *. subst err.
  destruct (fn (New (OnTx tx)) c w1) as [[[e|] c2] w2]; cbn -[Rollback Commit].
  - pose proof (Rollback_pending tx w2) as Hp. pose proof (Rollback_logs tx w2) as Hl.
    destruct (Rollback tx w2) as [[rb|] w3]; cbn in Hp, Hl |- *.
    all: split; [exact Hp | split; [discriminate|]].
    all: intros _; eexists; apply events_since_app; exact Hl.
  - pose proof (Commit_pending tx w2) as Hp. pose proof (Commit_logs tx w2) as Hl.
    destruct (Commit tx w2) as [ce w3]; cbn in Hp, Hl |- *.
    split; [exact Hp | split; [|congruence]].
    intros _. apply events_since_app. exact Hl.
Qed.

(** X3: [execTx] is all-or-nothing for any unit of work that writes only
    through the transaction it is handed: what observers of the store see
    after the call is either exactly what they saw before it or exactly
    the tables the unit of work left in the transaction, never a part of
    its writes.  It is the latter when [execTx] returns nil, and the
    former when the transaction could not begin or the unit of work
    returned an error; after a commit that failed it may be either. *)
Theorem execTx_all_or_nothing (c : C) (w : World) :
  let b := BeginTx (store_db store) ctx w in
  let run := fn (New (OnTx (fst (fst b)))) c (snd b) in
  let r := execTx store ctx fn c w in
  committed (snd run) = committed (snd b) ->
  (committed (snd r) = committed w \/ pending (snd run) = Some (committed (snd r)))
  /\ (fst (fst r) = None -> pending (snd run) = Some (committed (snd r)))
  /\ (snd (fst b) <> None \/ fst (fst run) <> None -> committed (snd r) = committed w).
Proof.
  intros b run r Hloc. subst b run r.
  pose proof (BeginTx_committed ctx (store_db store) w) as Hb.
  unfold execTx, bind, io, ret.
  destruct (BeginTx (store_db store) ctx w) as [[tx [e|]] w1]; cbn -[Rollback Commit] in *.
  - split; [left; exact Hb | split; [discriminate | intros _; exact Hb]].
  - destruct (fn (New (OnTx tx)) c w1) as [[[e|] c2] w2]; cbn -[Rollback Commit] in *.
    + pose proof (Rollback_committed tx w2) as Hr.
      destruct (Rollback tx w2) as [[rb|] w3]; cbn in *.
      all: split; [left; congruence | split; [discriminate | intros _; congruence]].
    + destruct (Commit_committed tx w2) as [Hc1 Hc2].
      destruct (Commit tx w2) as [ce w3]; cbn in *.
      split; [|split; [exact Hc2 | intros [H|H]; contradiction]].
      destruct Hc1 as [Hc1|Hc1]; [left; congruence | right; exact Hc1].
Qed.
End ExecTxMore.

Lemma execTx_returns_nil_iff_witness :
  fst (fst (execTx demo_store demo_ctx (TransferTx_fn demo_ctx (TransferTxParams.mk 1 2 30))
              TransferTxResult.zero demo_world)) = None.
Proof.
  apply (execTx_returns_nil_iff demo_store demo_ctx
           (TransferTx_fn demo_ctx (TransferTxParams.mk 1 2 30)) TransferTxResult.zero demo_world).
  vm_compute. repeat split.
Defined.

Lemma execTx_ends_transaction_witness :
  pending (snd (execTx demo_store demo_ctx (TransferTx_fn demo_ctx (TransferTxParams.mk 1 2 30))
                  TransferTxResult.zero faulty_world)) = None.
Proof.
  apply (execTx_ends_transaction demo_store demo_ctx
           (TransferTx_fn demo_ctx (TransferTxParams.mk 1 2 30)) TransferTxResult.zero faulty_world).
  reflexivity.
Defined.

Lemma execTx_all_or_nothing_witness :
  committed (snd (execTx demo_store demo_ctx (TransferTx_fn demo_ctx (TransferTxParams.mk 1 2 30))
                    TransferTxResult.zero faulty_world)) = committed faulty_world.
Proof.
  destruct (execTx_all_or_nothing demo_store demo_ctx
              (TransferTx_fn demo_ctx (TransferTxParams.mk 1 2 30)) TransferTxResult.zero
              faulty_world) as (_ & _ & H).
  - vm_compute. reflexivity.
  - apply H. right. vm_compute. discriminate.
Defined.

(** ** Failures inside a transfer *)

Ltac in_list := cbn; repeat (first [left; reflexivity | right]).

(** X4: the error of a failed statement reaches the caller unchanged:
    when a statement of the transfer fails with [e], [TransferTx] rolls
    back and returns [e] itself if the rollback succeeds, and the
    combination of [e] with the rollback error if it does not. *)
Theorem TransferTx_returns_statement_error store ctx arg w s e :
  let r := TransferTx store ctx arg w in
  let evs := events_since w (world_of r) in
  In (CStmt s, Some e) evs ->
  (In (CRollback, None) evs /\ error_of r = Some e)
  \/ (exists rb, In (CRollback, Some rb) evs /\ error_of r = Some (Errorf_tx_rb e rb)).
Proof.
  tx_run.
  all: tx_events.
  all: intros Hin; cbn in Hin.
  all: repeat (destruct Hin as [Hin|Hin]; [try discriminate Hin|]); try contradiction.
  all: injection Hin as <- <-.
  all: first [ left; split; [in_list | reflexivity]
             | right; eexists; split; [in_list | reflexivity] ].
Qed.

(** X5: a transfer out of an account that does not exist fails with
    [sql.ErrNoRows] only at the fourth statement: the transfer record and
    both entries have been inserted by then and are rolled back, nothing
    is committed, and the result returned with the error carries that
    transfer record and those entries, with both accounts left zero. *)
Theorem TransferTx_source_missing store ctx arg w :
  let from := TransferTxParams.FromAccountID arg in
  let to := TransferTxParams.ToAccountID arg in
  let amount := TransferTxParams.Amount arg in
  let r := TransferTx store ctx arg w in
  no_fault w ->
  find_account from (committed w) = None ->
  error_of r = Some ErrNoRows
  /\ committed (world_of r) = committed w
  /\ map fst (events_since w (world_of r)) =
       [CBegin;
        CStmt (createTransfer (CreateTransferParams.mk from to amount));
        CStmt (createEntry (CreateEntryParams.mk from (neg64 amount)));
        CStmt (createEntry (CreateEntryParams.mk to amount));
        CStmt (getAccount from);
        CRollback]
  /\ result_of r =
       TransferTxResult.mk (Transfer.mk from to amount) Account.zero Account.zero
         (Entry.mk from (neg64 amount)) (Entry.mk to amount).
Proof.
  intros from to amount r Hnf H1. subst from to amount r.
  pose proof (no_fault_iter _ 0 Hnf) as F0. pose proof (no_fault_iter _ 1 Hnf) as F1.
  pose proof (no_fault_iter _ 2 Hnf) as F2. pose proof (no_fault_iter _ 3 Hnf) as F3.
  pose proof (no_fault_iter _ 4 Hnf) as F4. pose proof (no_fault_iter _ 5 Hnf) as F5.
  cbn in F0, F1, F2, F3, F4, F5.
  destruct arg as [from to amount]; cbn in *.
  tx_run. tx_events. repeat split.
Qed.

(** X6: a transfer into an account that does not exist fails with
    [sql.ErrNoRows] at the sixth statement, after the source has been
    debited inside the transaction: the debit is rolled back with the
    rest and nothing is committed, but the result returned with the error
    carries the debited source account. *)
Theorem TransferTx_destination_missing store ctx arg w a1 :
  let from := TransferTxParams.FromAccountID arg in
  let to := TransferTxParams.ToAccountID arg in
  let amount := TransferTxParams.Amount arg in
  let r := TransferTx store ctx arg w in
  no_fault w ->
  find_account from (committed w) = Some a1 ->
  find_account to (committed w) = None ->
  error_of r = Some ErrNoRows
  /\ committed (world_of r) = committed w
  /\ stmts_of (events_since w (world_of r)) = take 6 (planned_stmts arg (committed w))
  /\ TransferTxResult.FromAccount (result_of r) = debit amount a1
  /\ TransferTxResult.ToAccount (result_of r) = Account.zero.
Proof.
  intros from to amount r Hnf H1 H2. subst from to amount r.
  pose proof (no_fault_iter _ 0 Hnf) as F0. pose proof (no_fault_iter _ 1 Hnf) as F1.
  pose proof (no_fault_iter _ 2 Hnf) as F2. pose proof (no_fault_iter _ 3 Hnf) as F3.
  pose proof (no_fault_iter _ 4 Hnf) as F4. pose proof (no_fault_iter _ 5 Hnf) as F5.
  pose proof (no_fault_iter _ 6 Hnf) as F6. pose proof (no_fault_iter _ 7 Hnf) as F7.
  cbn in F0, F1, F2, F3, F4, F5, F6, F7.
  destruct arg as [from to amount]; cbn in *.
  assert (Hne : from <> to) by (intros ->; unfold find_account in *; congruence).
  unfold debit. tx_run. tx_events. repeat split.
Qed.

(** X7: when every statement succeeds and the commit fails with [e],
    [TransferTx] returns [e] and attempts no rollback, and the result
    returned with the error is the fully populated one of a successful
    transfer: the caller must look at the error before the result.  What
    the store holds then is not decided by the code: either the tables
    from before the call or the tables of the completed transfer, never a
    part of it. *)
Theorem TransferTx_commit_failure store ctx arg w e :
  let from := TransferTxParams.FromAccountID arg in
  let to := TransferTxParams.ToAccountID arg in
  let amount := TransferTxParams.Amount arg in
  let r := TransferTx store ctx arg w in
  let evs := events_since w (world_of r) in
  In (CCommit, Some e) evs ->
  error_of r = Some e
  /\ stmts_of evs = planned_stmts arg (committed w)
  /\ (forall rb, ~ In (CRollback, rb) evs)
  /\ exists a1 a2,
       find_account from (committed w) = Some a1
       /\ find_account to (put_account from (debit amount a1) (committed w)) = Some a2
       /\ result_of r =
            TransferTxResult.mk (Transfer.mk from to amount)
              (debit amount a1) (credit amount a2)
              (Entry.mk from (neg64 amount)) (Entry.mk to amount)
       /\ (committed (world_of r) = committed w
           \/ committed (world_of r) = transferred arg a1 a2 (committed w)).
Proof.
  intros from to amount r evs. subst from to amount r evs.
  destruct arg as [from to amount]. unfold transferred, debit, credit. cbn.
  tx_run.
  all: tx_events.
  all: intros Hin; cbn in Hin.
  all: repeat (destruct Hin as [Hin|Hin]; [try discriminate Hin|]); try contradiction.
  all: injection Hin as <-.
  all: split; [reflexivity | split; [reflexivity | split]].
  all: try (intros rb Hrb; cbn in Hrb;
            repeat (destruct Hrb as [Hrb|Hrb]; [discriminate Hrb|]); contradiction).
  all: eexists _, _; split; [reflexivity | split; [eassumption | split; [reflexivity|]]].
  - right. reflexivity.
  - left. reflexivity.
Qed.

(** ** What a run does to the store *)

(** Every run either returns an error and leaves the tables as they
    were, or has reached the commit and installed the effect of its seven
    statements. *)
Lemma TransferTx_outcome store ctx arg w :
  let from := TransferTxParams.FromAccountID arg in
  let to := TransferTxParams.ToAccountID arg in
  let amount := TransferTxParams.Amount arg in
  let r := TransferTx store ctx arg w in
  (error_of r <> None /\ committed (world_of r) = committed w)
  \/ (In (CCommit, error_of r) (events_since w (world_of r))
      /\ exists a1 a2,
          find_account from (committed w) = Some a1
          /\ find_account to (put_account from (debit amount a1) (committed w)) = Some a2
          /\ committed (world_of r) = transferred arg a1 a2 (committed w)
          /\ result_of r =
               TransferTxResult.mk (Transfer.mk from to amount)
                 (debit amount a1) (credit amount a2)
                 (Entry.mk from (neg64 amount)) (Entry.mk to amount)).
Proof.
  intros from to amount r. subst from to amount r.
  destruct arg as [from to amount]. unfold transferred, debit, credit. cbn.
  tx_run.
  all: tx_events.
  all: try (left; split; [discriminate | reflexivity]).
  all: right; split; [in_list|]; eexists _, _; repeat split; eassumption.
Qed.

(** A rollback is all a run without a commit ends with. *)
Lemma TransferTx_no_commit_no_change store ctx arg w :
  let r := TransferTx store ctx arg w in
  (forall ce, ~ In (CCommit, ce) (events_since w (world_of r))) ->
  committed (world_of r) = committed w.
Proof.
  intros r H. subst r.
  destruct (TransferTx_outcome store ctx arg w) as [[_ Hc] | [Hin _]]; [exact Hc|].
  exfalso. exact (H _ Hin).
Qed.

Lemma with_Balance_same a b : Account.Balance a = b -> Account.with_Balance b a = a.
Proof. intros <-. now destruct a. Qed.

Lemma credit_debit amount a :
  in_int64 (Account.Balance a) -> credit amount (debit amount a) = a.
Proof.
  intros H. unfold credit, debit, Account.with_Balance. destruct a as [i o b c]; cbn in *.
  f_equal. unfold add64, sub64. rewrite wrap64_add_cancel. now apply wrap64_id.
Qed.

Lemma debit_credit amount a :
  in_int64 (Account.Balance a) -> debit amount (credit amount a) = a.
Proof.
  intros H. unfold credit, debit, Account.with_Balance. destruct a as [i o b c]; cbn in *.
  f_equal. unfold add64, sub64.
  replace (b + amount) with (b - - amount) by lia.
  replace (wrap64 (b - - amount) - amount) with (wrap64 (b - - amount) + - amount) by lia.
  rewrite wrap64_add_cancel. now apply wrap64_id.
Qed.

(** X9: a transfer never touches a third account: in every run, failed or
    not, an account other than the source and the destination is found
    afterwards exactly as it was before. *)
Theorem TransferTx_other_accounts_untouched store ctx arg w id :
  let r := TransferTx store ctx arg w in
  id <> TransferTxParams.FromAccountID arg ->
  id <> TransferTxParams.ToAccountID arg ->
  find_account id (committed (world_of r)) = find_account id (committed w).
Proof.
  intros r H1 H2. subst r.
  destruct (TransferTx_outcome store ctx arg w) as [[_ ->] | [_ (a1 & a2 & _ & _ & -> & _)]];
    [reflexivity|].
  unfold transferred, find_account, put_account. cbn.
  now rewrite !lookup_insert_ne by congruence.
Qed.

(** X10: a transfer neither creates nor deletes an account: in every run
    the set of account ids in the store is unchanged. *)
Theorem TransferTx_keeps_account_ids store ctx arg w :
  dom (accounts (committed (world_of (TransferTx store ctx arg w)))) =
  dom (accounts (committed w)).
Proof.
  destruct (TransferTx_outcome store ctx arg w)
    as [[_ ->] | [_ (a1 & a2 & Hfrom & Hto & -> & _)]]; [reflexivity|].
  unfold transferred, find_account, put_account in *. cbn in *.
  rewrite !dom_insert_L.
  apply (elem_of_dom_2 (D:=gset Z)) in Hfrom, Hto. rewrite dom_insert_L in Hto.
  apply set_eq. intros i. rewrite !elem_of_union, !elem_of_singleton.
  rewrite elem_of_union, elem_of_singleton in Hto.
  split; [intros [->|[->|Hi]] | intros Hi]; try tauto.
  destruct Hto as [->|Hto]; assumption.
Qed.

(** X11: transfer and entry records are append-only: every run leaves the
    records that were there in place and in order, and adds either
    nothing or exactly one transfer record and its two entries.  It adds
    them when it returns nil, and adds nothing when it ends without
    attempting the commit (the transaction did not begin, or a statement
    failed and it rolled back). *)
Theorem TransferTx_records_append_only store ctx arg w :
  let from := TransferTxParams.FromAccountID arg in
  let to := TransferTxParams.ToAccountID arg in
  let amount := TransferTxParams.Amount arg in
  let r := TransferTx store ctx arg w in
  let kept :=
    transfers (committed (world_of r)) = transfers (committed w)
    /\ entries (committed (world_of r)) = entries (committed w) in
  let added :=
    transfers (committed (world_of r)) =
      transfers (committed w) ++ [Transfer.mk from to amount]
    /\ entries (committed (world_of r)) =
         entries (committed w) ++ [Entry.mk from (neg64 amount); Entry.mk to amount] in
  (kept \/ added)
  /\ (error_of r = None -> added)
  /\ ((forall ce, ~ In (CCommit, ce) (events_since w (world_of r))) -> kept).
Proof.
  intros from to amount r kept added. subst from to amount r kept added.
  destruct (TransferTx_outcome store ctx arg w)
    as [[E Hc] | [Hin (a1 & a2 & _ & _ & Hc & _)]]; rewrite Hc.
  - split; [left; split; reflexivity | split; [contradiction | split; reflexivity]].
  - assert (A : transfers (transferred arg a1 a2 (committed w)) =
                  transfers (committed w) ++
                  [Transfer.mk (TransferTxParams.FromAccountID arg)
                     (TransferTxParams.ToAccountID arg) (TransferTxParams.Amount arg)]
                /\ entries (transferred arg a1 a2 (committed w)) =
                   entries (committed w) ++
                   [Entry.mk (TransferTxParams.FromAccountID arg)
                      (neg64 (TransferTxParams.Amount arg));
                    Entry.mk (TransferTxParams.ToAccountID arg) (TransferTxParams.Amount arg)]).
    { unfold transferred. cbn. rewrite <- app_assoc. split; reflexivity. }
    split; [right; exact A | split; [intros _; exact A|]].
    intros H. exfalso. exact (H _ Hin).
Qed.

(** X12: the int64 range of the stored balances is an invariant of
    [TransferTx]: if every balance is an int64 before a run, every
    balance is one after it, overflow or not. *)
Theorem TransferTx_keeps_balances_in_range store ctx arg w :
  balances_in_range (committed w) ->
  balances_in_range (committed (world_of (TransferTx store ctx arg w))).
Proof.
  intros Hw.
  destruct (TransferTx_outcome store ctx arg w) as [[_ ->] | [_ (a1 & a2 & _ & _ & -> & _)]];
    [exact Hw|].
  intros id a. unfold transferred, find_account, put_account. cbn.
  rewrite lookup_insert. case_decide as E1.
  - intros [= <-]. apply wrap64_range.
  - rewrite lookup_insert. case_decide as E2.
    + intros [= <-]. apply wrap64_range.
    + apply Hw.
Qed.

(** X13: on success the returned accounts are the rows the store now
    holds: the destination row is the returned ToAccount, and, when the
    two accounts differ, the source row is the returned FromAccount; the
    transfer changes the balance of a row and nothing else of it. *)
Theorem TransferTx_result_mirrors_store store ctx arg w a1 :
  let from := TransferTxParams.FromAccountID arg in
  let to := TransferTxParams.ToAccountID arg in
  let r := TransferTx store ctx arg w in
  find_account from (committed w) = Some a1 ->
  error_of r = None ->
  let res := result_of r in
  find_account to (committed (world_of r)) = Some (TransferTxResult.ToAccount res)
  /\ (from <> to ->
      find_account from (committed (world_of r)) = Some (TransferTxResult.FromAccount res))
  /\ Account.ID (TransferTxResult.FromAccount res) = Account.ID a1
  /\ Account.Owner (TransferTxResult.FromAccount res) = Account.Owner a1
  /\ Account.Currency (TransferTxResult.FromAccount res) = Account.Currency a1
  /\ TransferTxResult.Transfer res =
       Transfer.mk from to (TransferTxParams.Amount arg).
Proof.
  intros from to r H1 E. subst from to r.
  destruct (TransferTx_outcome store ctx arg w)
    as [[E' _] | [_ (b1 & a2 & H1' & _ & -> & ->)]]; [contradiction|].
  rewrite H1 in H1'. injection H1' as <-.
  unfold transferred, find_account, put_account. cbn.
  rewrite lookup_insert_eq. repeat split.
  intros Hne. rewrite lookup_insert_ne by congruence. now rewrite lookup_insert_eq.
Qed.

(** X14: a transfer of 0 that succeeds changes no account, yet it is
    recorded: the store holds one more transfer record and two more
    entries, all of amount 0. *)
Theorem TransferTx_zero_amount store ctx from to w :
  let r := TransferTx store ctx (TransferTxParams.mk from to 0) w in
  balances_in_range (committed w) ->
  error_of r = None ->
  accounts (committed (world_of r)) = accounts (committed w)
  /\ transfers (committed (world_of r)) = transfers (committed w) ++ [Transfer.mk from to 0]
  /\ entries (committed (world_of r)) =
       entries (committed w) ++ [Entry.mk from 0; Entry.mk to 0].
Proof.
  intros r Hw E. subst r.
  destruct (TransferTx_outcome store ctx (TransferTxParams.mk from to 0) w)
    as [[E' _] | [_ (a1 & a2 & H1 & H2 & -> & _)]]; [contradiction|].
  unfold transferred, find_account, put_account in *. cbn in *.
  assert (D1 : debit 0 a1 = a1).
  { apply with_Balance_same. unfold sub64. rewrite Z.sub_0_r. symmetry. apply wrap64_id, (Hw from a1 H1). }
  rewrite D1 in *. rewrite (insert_id _ _ _ H1) in *.
  assert (D2 : credit 0 a2 = a2).
  { apply with_Balance_same. unfold add64. rewrite Z.add_0_r. symmetry. apply wrap64_id, (Hw to a2 H2). }
  rewrite D2, (insert_id _ _ _ H2), <- app_assoc. repeat split.
Qed.

(** X15: a transfer followed by the same amount sent back restores every
    account: when both runs succeed, the accounts of the store are
    exactly those from before the first, even if the balances wrapped
    around in between. *)
Theorem TransferTx_there_and_back store ctx from to amount w :
  let r1 := TransferTx store ctx (TransferTxParams.mk from to amount) w in
  let r2 := TransferTx store ctx (TransferTxParams.mk to from amount) (world_of r1) in
  balances_in_range (committed w) ->
  error_of r1 = None ->
  error_of r2 = None ->
  accounts (committed (world_of r2)) = accounts (committed w).
Proof.
  intros r1 r2 Hw E1 E2.
  pose proof (TransferTx_outcome store ctx (TransferTxParams.mk to from amount) (world_of r1)) as O2.
  pose proof (TransferTx_outcome store ctx (TransferTxParams.mk from to amount) w) as O1.
  cbv zeta in O1, O2. fold r1 in O1. fold r2 in O2. clearbody r2. clearbody r1.
  destruct O2 as [[E' _] | [_ (b1 & b2 & G1 & G2 & -> & _)]]; [contradiction|].
  destruct O1 as [[E' _] | [_ (a1 & a2 & H1 & H2 & Hc & _)]]; [contradiction|].
  rewrite Hc in *. clear Hc E1 E2.
  unfold transferred, find_account, put_account in *. cbn in *.
  destruct (decide (from = to)) as [<-|Hne].
  - rewrite lookup_insert_eq in H2, G1, G2. injection H2 as <-. injection G1 as <-.
    injection G2 as <-.
    rewrite !insert_insert_eq.
    pose proof (Hw from a1 H1) as R1.
    rewrite credit_debit by (rewrite credit_debit by exact R1; exact R1).
    rewrite credit_debit by exact R1. now apply insert_id.
  - rewrite lookup_insert_ne in H2 by congruence.
    rewrite lookup_insert_eq in G1. injection G1 as <-.
    rewrite lookup_insert_ne in G2 by congruence.
    rewrite lookup_insert_ne in G2 by congruence.
    rewrite lookup_insert_eq in G2. injection G2 as <-.
    pose proof (Hw from a1 H1) as R1. pose proof (Hw to a2 H2) as R2.
    rewrite credit_debit by exact R1. rewrite debit_credit by exact R2.
    apply map_eq. intros i.
    destruct (decide (i = from)) as [->|N1]; [now rewrite lookup_insert_eq|].
    rewrite lookup_insert_ne by congruence.
    destruct (decide (i = to)) as [->|N2]; [now rewrite lookup_insert_eq|].
    now rewrite !lookup_insert_ne by congruence.
Qed.

(** X16: the sign of the amount is the direction of the transfer: sending
    [- x] from one account to another leaves the accounts exactly as
    sending [x] the other way does, when both succeed. *)
Theorem TransferTx_negative_amount_reverses store ctx from to x w :
  let r1 := TransferTx store ctx (TransferTxParams.mk from to (- x)) w in
  let r2 := TransferTx store ctx (TransferTxParams.mk to from x) w in
  from <> to ->
  error_of r1 = None ->
  error_of r2 = None ->
  accounts (committed (world_of r1)) = accounts (committed (world_of r2)).
Proof.
  intros r1 r2 Hne E1 E2.
  pose proof (TransferTx_outcome store ctx (TransferTxParams.mk from to (- x)) w) as O1.
  pose proof (TransferTx_outcome store ctx (TransferTxParams.mk to from x) w) as O2.
  cbv zeta in O1, O2. fold r1 in O1. fold r2 in O2. clearbody r1 r2.
  destruct O1 as [[E' _] | [_ (a1 & a2 & H1 & H2 & -> & _)]]; [contradiction|].
  destruct O2 as [[E' _] | [_ (b1 & b2 & G1 & G2 & -> & _)]]; [contradiction|].
  clear E1 E2.
  unfold transferred, find_account, put_account in *. cbn in *.
  rewrite lookup_insert_ne in H2, G2 by congruence.
  rewrite G1 in H2. injection H2 as <-. rewrite H1 in G2. injection G2 as <-.
  replace (debit (- x) a1) with (credit x a1)
    by (unfold debit, credit, add64, sub64; do 2 f_equal; lia).
  replace (credit (- x) b1) with (debit x b1)
    by (unfold debit, credit, add64, sub64; do 2 f_equal; lia).
  now apply insert_insert_ne.
Qed.

(** ** Instances *)

Lemma bank_in_range l :
  Forall (fun a => in_int64 (Account.Balance a)) l -> balances_in_range (bank l).
Proof.
  intros H id a Hl. unfold find_account, bank in Hl. cbn in Hl.
  apply elem_of_list_to_map_2, list_elem_of_In, in_map_iff in Hl.
  destruct Hl as (x & [= _ ->] & Hx).
  rewrite List.Forall_forall in H. exact (H _ Hx).
Qed.

Lemma demo_world_in_range : balances_in_range (committed demo_world).
Proof.
  apply bank_in_range. repeat (constructor; [vm_compute; split; discriminate|]). constructor.
Qed.

Lemma overdrawn_world_in_range : balances_in_range (committed overdrawn_world).
Proof.
  apply bank_in_range. repeat (constructor; [vm_compute; split; discriminate|]). constructor.
Qed.

Lemma TransferTx_returns_statement_error_witness :
  error_of (TransferTx demo_store demo_ctx (TransferTxParams.mk 1 2 30) faulty_world) =
    Some (ErrDriver "disk full").
Proof.
  destruct (TransferTx_returns_statement_error demo_store demo_ctx (TransferTxParams.mk 1 2 30)
              faulty_world (createEntry (CreateEntryParams.mk 2 30)) (ErrDriver "disk full"))
    as [[_ H] | (rb & H & _)].
  - vm_compute. do 3 right. left. reflexivity.
  - exact H.
  - exfalso. vm_compute in H. repeat (destruct H as [H|H]; [discriminate H|]). exact H.
Defined.

Lemma TransferTx_source_missing_witness :
  let r := TransferTx demo_store demo_ctx (TransferTxParams.mk 9 2 30) demo_world in
  error_of r = Some ErrNoRows
  /\ committed (world_of r) = committed demo_world
  /\ result_of r =
       TransferTxResult.mk (Transfer.mk 9 2 30) Account.zero Account.zero
         (Entry.mk 9 (neg64 30)) (Entry.mk 2 30).
Proof.
  destruct (TransferTx_source_missing demo_store demo_ctx (TransferTxParams.mk 9 2 30) demo_world)
    as (H1 & H2 & _ & H4).
  - constructor.
  - reflexivity.
  - split; [exact H1 | split; [exact H2 | exact H4]].
Defined.

Lemma TransferTx_destination_missing_witness :
  let r := TransferTx demo_store demo_ctx (TransferTxParams.mk 1 9 30) demo_world in
  error_of r = Some ErrNoRows
  /\ committed (world_of r) = committed demo_world
  /\ TransferTxResult.FromAccount (result_of r) = debit 30 (acct 1 100).
Proof.
  destruct (TransferTx_destination_missing demo_store demo_ctx (TransferTxParams.mk 1 9 30)
              demo_world (acct 1 100)) as (H1 & H2 & _ & H4 & _).
  - constructor.
  - reflexivity.
  - reflexivity.
  - split; [exact H1 | split; [exact H2 | exact H4]].
Defined.

Lemma TransferTx_commit_failure_witness :
  let r := TransferTx demo_store demo_ctx (TransferTxParams.mk 1 2 30) commit_fails_world in
  error_of r = Some (ErrDriver "commit failed")
  /\ stmts_of (events_since commit_fails_world (world_of r)) =
       planned_stmts (TransferTxParams.mk 1 2 30) (committed commit_fails_world).
Proof.
  destruct (TransferTx_commit_failure demo_store demo_ctx (TransferTxParams.mk 1 2 30)
              commit_fails_world (ErrDriver "commit failed")) as (H1 & H2 & _).
  - vm_compute. do 8 right. left. reflexivity.
  - split; [exact H1 | exact H2].
Defined.

Example scenario_failed_commit :
  let arg := TransferTxParams.mk 1 2 30 in
  let r := TransferTx demo_store demo_ctx arg commit_fails_world in
  let r' := TransferTx demo_store demo_ctx arg commit_lands_world in
  error_of r = Some (ErrDriver "commit failed")
  /\ balances (committed (world_of r)) [1; 2] = [Some 100; Some 50]
  /\ error_of r' = Some (ErrDriver "commit failed")
  /\ balances (committed (world_of r')) [1; 2] = [Some 70; Some 80]
  /\ result_of r = result_of r'.
Proof. vm_compute. repeat split. Qed.

Lemma TransferTx_other_accounts_untouched_witness :
  find_account 3 (committed (world_of
     (TransferTx demo_store demo_ctx (TransferTxParams.mk 1 2 30) three_accounts_world))) =
  find_account 3 (committed three_accounts_world).
Proof.
  apply (TransferTx_other_accounts_untouched demo_store demo_ctx (TransferTxParams.mk 1 2 30)
           three_accounts_world 3); discriminate.
Defined.

Lemma TransferTx_keeps_balances_in_range_witness :
  in_int64 (Account.Balance (acct 1 MaxInt64)).
Proof.
  apply (TransferTx_keeps_balances_in_range demo_store demo_ctx (TransferTxParams.mk 1 2 1)
           overdrawn_world overdrawn_world_in_range 1 (acct 1 MaxInt64)).
  vm_compute. reflexivity.
Defined.

Lemma TransferTx_result_mirrors_store_witness :
  let r := TransferTx demo_store demo_ctx (TransferTxParams.mk 1 2 30) demo_world in
  find_account 2 (committed (world_of r)) = Some (TransferTxResult.ToAccount (result_of r))
  /\ find_account 1 (committed (world_of r)) = Some (TransferTxResult.FromAccount (result_of r)).
Proof.
  destruct (TransferTx_result_mirrors_store demo_store demo_ctx (TransferTxParams.mk 1 2 30)
              demo_world (acct 1 100)) as (H1 & H2 & _).
  - reflexivity.
  - reflexivity.
  - split; [exact H1 | apply H2; discriminate].
Defined.

Lemma TransferTx_zero_amount_witness :
  let r := TransferTx demo_store demo_ctx (TransferTxParams.mk 1 2 0) demo_world in
  accounts (committed (world_of r)) = accounts (committed demo_world)
  /\ transfers (committed (world_of r)) = [Transfer.mk 1 2 0]
  /\ entries (committed (world_of r)) = [Entry.mk 1 0; Entry.mk 2 0].
Proof.
  apply (TransferTx_zero_amount demo_store demo_ctx 1 2 demo_world).
  - exact demo_world_in_range.
  - reflexivity.
Defined.

Lemma TransferTx_there_and_back_witness :
  accounts (committed (world_of
     (TransferTx demo_store demo_ctx (TransferTxParams.mk 2 1 1)
        (world_of (TransferTx demo_store demo_ctx (TransferTxParams.mk 1 2 1) overdrawn_world))))) =
  accounts (committed overdrawn_world).
Proof.
  apply (TransferTx_there_and_back demo_store demo_ctx 1 2 1 overdrawn_world).
  - exact overdrawn_world_in_range.
  - vm_compute. reflexivity.
  - vm_compute. reflexivity.
Defined.

Lemma TransferTx_negative_amount_reverses_witness :
  accounts (committed (world_of
     (TransferTx demo_store demo_ctx (TransferTxParams.mk 1 2 (- 5)) demo_world))) =
  accounts (committed (world_of
     (TransferTx demo_store demo_ctx (TransferTxParams.mk 2 1 5) demo_world))).
Proof.
  apply (TransferTx_negative_amount_reverses demo_store demo_ctx 1 2 5 demo_world).
  - discriminate.
  - vm_compute. reflexivity.
  - vm_compute. reflexivity.
Defined.
